(** * AuthService: the Firebase authentication facade of E-Shop

    A shallow embedding of [src/services/auth.js].  The class forwards every
    operation to the Firebase client SDK; the SDK is third-party code, so it
    enters the development as a record of functions over an abstract provider
    world.  An [async] method is a computation that threads the facade object
    and the provider world, completes normally or abruptly (a thrown value),
    and records the SDK calls and field assignments it performed. *)

From Stdlib Require Import String List Arith Lia.
Import ListNotations.
Local Open Scope string_scope.
Local Open Scope list_scope.

Set Implicit Arguments.

(** ** Values *)

(** Caller-supplied values that the facade never inspects. *)
Inductive JsValue : Type :=
| JsUndefined
| JsNull
| JsBoolean (b : bool)
| JsNumber (n : nat)
| JsString (s : string).

(** The part of Firebase's [User] the facade can observe. *)
Record User : Type := mkUser {
  uid : string;
  email : string;
  emailVerified : bool
}.

Record UserCredential : Type := mkUserCredential {
  user : User;
  operationType : string
}.

(** What a rejected SDK promise (or a throwing SDK function) carries. *)
Record SdkError : Type := mkSdkError {
  name : string;
  code : string;
  message : string
}.

(** Values a facade method can throw.  An error object built by the facade
    itself is never the object the SDK rejected with, hence the separate
    constructors. *)
Inductive Thrown : Type :=
| ProviderError (e : SdkError)
| Error (msg : string)
| TypeError (msg : string)
| NotImplementedError.

(** How an SDK call settles. *)
Inductive Settled (A : Type) : Type :=
| Fulfilled (a : A)
| Rejected (e : SdkError).
Arguments Rejected {A} e.

(** How a facade method completes. *)
Inductive Completion (A : Type) : Type :=
| Return (a : A)
| Throw (t : Thrown).
Arguments Throw {A} t.

(** The two fields of the class. *)
Inductive Field : Type := FFirebaseApp | FAuth.

(** ** The SDK *)

Module Firebase.

(** The imports of [firebase/app] and [firebase/auth] that the class uses,
    over the provider world [W].  [None] stands for [undefined]/[null]
    wherever the JavaScript call site can pass it. *)
Record Sdk (FirebaseConfig FirebaseApp Auth W : Type) : Type := mkSdk {
  initializeApp : FirebaseConfig -> W -> Settled FirebaseApp * W;
  getAuth : option FirebaseApp -> W -> Settled Auth * W;
  createUserWithEmailAndPassword :
    option Auth -> string -> string -> W -> Settled UserCredential * W;
  signInWithEmailAndPassword :
    option Auth -> string -> string -> W -> Settled UserCredential * W;
  signOut : option Auth -> W -> Settled unit * W;
  sendEmailVerification : option User -> W -> Settled unit * W;
  sendPasswordResetEmail : option Auth -> string -> W -> Settled unit * W;
  (* the [currentUser] property of the auth object *)
  currentUser : Auth -> W -> option User
}.

(** Labels of the SDK calls, as they appear in a trace. *)
Inductive Call (FirebaseConfig FirebaseApp Auth : Type) : Type :=
| InitializeApp (config : FirebaseConfig)
| GetAuth (app : option FirebaseApp)
| CreateUserWithEmailAndPassword (auth : option Auth) (email password : string)
| SignInWithEmailAndPassword (auth : option Auth) (email password : string)
| SignOut (auth : option Auth)
| SendEmailVerification (u : option User)
| SendPasswordResetEmail (auth : option Auth) (email : string).

Arguments InitializeApp {FirebaseConfig FirebaseApp Auth} config.
Arguments GetAuth {FirebaseConfig FirebaseApp Auth} app.
Arguments CreateUserWithEmailAndPassword {FirebaseConfig FirebaseApp Auth}
  auth email password.
Arguments SignInWithEmailAndPassword {FirebaseConfig FirebaseApp Auth}
  auth email password.
Arguments SignOut {FirebaseConfig FirebaseApp Auth} auth.
Arguments SendEmailVerification {FirebaseConfig FirebaseApp Auth} u.
Arguments SendPasswordResetEmail {FirebaseConfig FirebaseApp Auth} auth email.

End Firebase.

(** ** The computation monad *)

Section Js.

Context {FirebaseConfig FirebaseApp Auth W : Type}.

(** The facade object: [this.firebaseApp] and [this.auth]; a field that was
    never assigned reads as [None]. *)
Record Fields : Type := mkFields {
  firebaseApp : option FirebaseApp;
  auth : option Auth
}.

Record Machine : Type := mkMachine {
  this : Fields;
  world : W
}.

(** One observable step: an SDK call with the error it was rejected with, if
    any, or an assignment to a field of [this]. *)
Inductive Effect : Type :=
| Called (c : Firebase.Call FirebaseConfig FirebaseApp Auth)
         (failure : option SdkError)
| Assigned (f : Field).

Record Run (A : Type) : Type := mkRun {
  completion : Completion A;
  final : Machine;
  effects : list Effect
}.

Definition Js (A : Type) : Type := Machine -> Run A.

Definition ret {A} (a : A) : Js A :=
  fun m => mkRun (Return a) m [].

Definition throw {A} (t : Thrown) : Js A :=
  fun m => mkRun (Throw t) m [].

Definition bind {A B} (c : Js A) (k : A -> Js B) : Js B :=
  fun m =>
    let r := c m in
    match completion r with
    | Return a =>
        let r' := k a (final r) in
        mkRun (completion r') (final r') (effects r ++ effects r')
    | Throw t => mkRun (Throw t) (final r) (effects r)
    end.

(** [try { body } catch (error) { handler error }] *)
Definition try_catch {A} (body : Js A) (handler : Thrown -> Js A) : Js A :=
  fun m =>
    let r := body m in
    match completion r with
    | Return a => r
    | Throw t =>
        let r' := handler t (final r) in
        mkRun (completion r') (final r') (effects r ++ effects r')
    end.

(** Calling an SDK function (and awaiting it, when it is asynchronous): a
    rejection is rethrown at the call site with the SDK's error. *)
Definition invoke {A} (c : Firebase.Call FirebaseConfig FirebaseApp Auth)
    (f : W -> Settled A * W) : Js A :=
  fun m =>
    let '(s, w) := f (world m) in
    match s with
    | Fulfilled a => mkRun (Return a) (mkMachine (this m) w) [Called c None]
    | Rejected e =>
        mkRun (Throw (ProviderError e)) (mkMachine (this m) w)
              [Called c (Some e)]
    end.

(** [this.firebaseApp], [this.auth] *)
Definition get_firebaseApp : Js (option FirebaseApp) :=
  fun m => mkRun (Return (firebaseApp (this m))) m [].

Definition get_auth : Js (option Auth) :=
  fun m => mkRun (Return (auth (this m))) m [].

(** [this.firebaseApp = v], [this.auth = v] *)
Definition set_firebaseApp (v : FirebaseApp) : Js unit :=
  fun m =>
    mkRun (Return tt)
          (mkMachine (mkFields (Some v) (auth (this m))) (world m))
          [Assigned FFirebaseApp].

Definition set_auth (v : Auth) : Js unit :=
  fun m =>
    mkRun (Return tt)
          (mkMachine (mkFields (firebaseApp (this m)) (Some v)) (world m))
          [Assigned FAuth].

End Js.

Arguments Fields : clear implicits.
Arguments Machine : clear implicits.
Arguments Effect : clear implicits.
Arguments Run : clear implicits.
Arguments Js : clear implicits.

Declare Scope js_scope.
Delimit Scope js_scope with js.
Notation "x <- c ;; k" := (bind c (fun x => k))
  (at level 61, c at next level, right associativity) : js_scope.
Notation "c ;;; k" := (bind c (fun _ => k))
  (at level 61, right associativity) : js_scope.
Local Open Scope js_scope.

(** ** The class *)

Module AuthService.

Section Class.

Context {FirebaseConfig FirebaseApp Auth W : Type}.

(** [constants/firebaseConfig], the static configuration. *)
Variable firebaseConfig : FirebaseConfig.

Variable sdk : Firebase.Sdk FirebaseConfig FirebaseApp Auth W.

Abbreviation Js := (Js FirebaseConfig FirebaseApp Auth W).

(** Reading [a.currentUser]; on [undefined] the property access throws. *)
Definition currentUser_of (a : option Auth) : Js (option User) :=
  fun m =>
    match a with
    | Some h => ret (Firebase.currentUser sdk h (world m)) m
    | None =>
        throw (TypeError
          "Cannot read properties of undefined (reading 'currentUser')") m
    end.

(** Modelled from the spec: the helper [utils/UnimplementedError], which the
    class imports and calls as a function and whose file is not part of the
    sources.  The spec has it raise [NotImplementedError] locally and
    unconditionally, whatever the argument. *)
Definition UnimplementedError (provider : JsValue) : Js unit :=
  throw NotImplementedError.

(** [constructor()] *)
Definition constructor : Js unit :=
  app <- invoke (Firebase.InitializeApp firebaseConfig)
                (Firebase.initializeApp sdk firebaseConfig) ;;
  set_firebaseApp app ;;;
  this_firebaseApp <- get_firebaseApp ;;
  a <- invoke (Firebase.GetAuth this_firebaseApp)
              (Firebase.getAuth sdk this_firebaseApp) ;;
  set_auth a.

(** [new AuthService()] in the provider world [w]. *)
Definition new (w : W) : Run FirebaseConfig FirebaseApp Auth W unit :=
  constructor (mkMachine (mkFields None None) w).

(** [async register(email, password)] *)
Definition register (email password : string) : Js User :=
  try_catch
    (this_auth <- get_auth ;;
     userCredential <-
       invoke (Firebase.CreateUserWithEmailAndPassword this_auth email password)
              (Firebase.createUserWithEmailAndPassword sdk this_auth
                 email password) ;;
     (* Send email verification after successful registration *)
     invoke (Firebase.SendEmailVerification (Some (user userCredential)))
            (Firebase.sendEmailVerification sdk
               (Some (user userCredential))) ;;;
     ret (user userCredential))
    (fun error => throw error).

(** [async logout()] *)
Definition logout : Js unit :=
  try_catch
    (this_auth <- get_auth ;;
     invoke (Firebase.SignOut this_auth) (Firebase.signOut sdk this_auth))
    (fun error => throw error).

(** [async login(email, password)] *)
Definition login (email password : string) : Js User :=
  try_catch
    (this_auth <- get_auth ;;
     userCredential <-
       invoke (Firebase.SignInWithEmailAndPassword this_auth email password)
              (Firebase.signInWithEmailAndPassword sdk this_auth
                 email password) ;;
     (* Check if the user's email is verified *)
     if emailVerified (user userCredential)
     then ret (user userCredential)
     else
       (logout ;;; (* Log out if email is not verified *)
        throw (Error "Email not verified")))
    (fun error => throw error).

(** [async sendEmailVerification()] *)
Definition sendEmailVerification : Js unit :=
  try_catch
    (this_auth <- get_auth ;;
     u <- currentUser_of this_auth ;;
     invoke (Firebase.SendEmailVerification u)
            (Firebase.sendEmailVerification sdk u))
    (fun error => throw error).

(** [async forgotPassword(email)] *)
Definition forgotPassword (email : string) : Js unit :=
  try_catch
    (this_auth <- get_auth ;;
     invoke (Firebase.SendPasswordResetEmail this_auth email)
            (Firebase.sendPasswordResetEmail sdk this_auth email))
    (fun error => throw error).

(** [async signInWithGoogle(provider)] *)
Definition signInWithGoogle (provider : JsValue) : Js unit :=
  UnimplementedError provider ;;;
  ret tt.

(** [async signInWithFacebook(provider)] *)
Definition signInWithFacebook (provider : JsValue) : Js unit :=
  UnimplementedError provider ;;;
  ret tt.

(** A call of one of the seven methods, and what its promise resolves to. *)
Inductive Operation : Type :=
| Register (email password : string)
| Logout
| Login (email password : string)
| SendEmailVerification
| ForgotPassword (email : string)
| SignInWithGoogle (provider : JsValue)
| SignInWithFacebook (provider : JsValue).

Inductive Result : Type :=
| RUser (u : User)
| RVoid.

Definition exec (op : Operation) : Js Result :=
  match op with
  | Register email password => u <- register email password ;; ret (RUser u)
  | Logout => logout ;;; ret RVoid
  | Login email password => u <- login email password ;; ret (RUser u)
  | SendEmailVerification => sendEmailVerification ;;; ret RVoid
  | ForgotPassword email => forgotPassword email ;;; ret RVoid
  | SignInWithGoogle provider => signInWithGoogle provider ;;; ret RVoid
  | SignInWithFacebook provider => signInWithFacebook provider ;;; ret RVoid
  end.

End Class.

End AuthService.

(** ** Reading a trace *)

Section Traces.

Context {FirebaseConfig FirebaseApp Auth : Type}.

Abbreviation Effect := (Effect FirebaseConfig FirebaseApp Auth).

(** The fields assigned, in order. *)
Fixpoint assignments (t : list Effect) : list Field :=
  match t with
  | [] => []
  | Assigned f :: t' => f :: assignments t'
  | Called _ _ :: t' => assignments t'
  end.

(** The verification notifications requested from the provider. *)
Definition is_notification (e : Effect) : bool :=
  match e with
  | Called (Firebase.SendEmailVerification _) _ => true
  | _ => false
  end.

Definition notifications (t : list Effect) : nat :=
  length (filter is_notification t).

(** The sign-out requests made to the provider. *)
Definition is_signOut (e : Effect) : bool :=
  match e with
  | Called (Firebase.SignOut _) _ => true
  | _ => false
  end.

Definition signOuts (t : list Effect) : nat :=
  length (filter is_signOut t).

(** The SDK functions each method's body mentions. *)
Definition permitted (op : AuthService.Operation)
    (c : Firebase.Call FirebaseConfig FirebaseApp Auth) : bool :=
  match op, c with
  | AuthService.Register _ _, Firebase.CreateUserWithEmailAndPassword _ _ _
  | AuthService.Register _ _, Firebase.SendEmailVerification _
  | AuthService.Logout, Firebase.SignOut _
  | AuthService.Login _ _, Firebase.SignInWithEmailAndPassword _ _ _
  | AuthService.Login _ _, Firebase.SignOut _
  | AuthService.SendEmailVerification, Firebase.SendEmailVerification _
  | AuthService.ForgotPassword _, Firebase.SendPasswordResetEmail _ _ => true
  | _, _ => false
  end.

Definition is_permitted (op : AuthService.Operation) (e : Effect) : bool :=
  match e with
  | Called c _ => permitted op c
  | Assigned _ => false
  end.

(** The auth handle an SDK call was given, for the calls that take one. *)
Definition handle_of (c : Firebase.Call FirebaseConfig FirebaseApp Auth)
  : option (option Auth) :=
  match c with
  | Firebase.CreateUserWithEmailAndPassword a _ _
  | Firebase.SignInWithEmailAndPassword a _ _
  | Firebase.SignOut a
  | Firebase.SendPasswordResetEmail a _ => Some a
  | Firebase.InitializeApp _
  | Firebase.GetAuth _
  | Firebase.SendEmailVerification _ => None
  end.

Definition uses_handle (h : option Auth) (e : Effect) : Prop :=
  match e with
  | Called c _ =>
      match handle_of c with
      | Some h' => h' = h
      | None => True
      end
  | Assigned _ => True
  end.

End Traces.

(** ** An in-memory identity provider

    A test double for the SDK: accounts in a list, one session, an outbox of
    notifications, and a script of injected faults (the next SDK request
    takes the head of the script; [Some e] makes it fail with [e]). *)

Module InMemory.

Record Account : Type := mkAccount {
  address : string;
  secret : string;
  verified : bool
}.

Inductive Mail : Type :=
| VerificationMail (to : string)
| PasswordResetMail (to : string).

Record World : Type := mkWorld {
  accounts : list Account;
  session : option User;
  outbox : list Mail;
  faults : list (option SdkError)
}.

Definition firebaseError (c : string) : SdkError :=
  mkSdkError "FirebaseError" c ("Firebase: Error (" ++ c ++ ").")%string.

Definition networkFailure : SdkError :=
  firebaseError "auth/network-request-failed".

Definition nullUserFailure : SdkError :=
  mkSdkError "TypeError" EmptyString
    "Cannot read properties of null (reading 'getIdToken')".

Fixpoint find_account (a : string) (l : list Account) : option Account :=
  match l with
  | [] => None
  | x :: l' => if String.eqb (address x) a then Some x else find_account a l'
  end.

Definition user_of (x : Account) : User :=
  mkUser (address x) (address x) (verified x).

(** Takes the next entry of the fault script before serving a request. *)
Definition request {A} (serve : World -> Settled A * World) (w : World)
  : Settled A * World :=
  match faults w with
  | Some e :: rest =>
      (Rejected e, mkWorld (accounts w) (session w) (outbox w) rest)
  | None :: rest => serve (mkWorld (accounts w) (session w) (outbox w) rest)
  | [] => serve w
  end.

Definition initializeApp (config : string) : World -> Settled string * World :=
  request (fun w => (Fulfilled config, w)).

Definition getAuth (app : option string) : World -> Settled string * World :=
  request (fun w =>
    match app with
    | Some a => (Fulfilled a, w)
    | None => (Fulfilled "[DEFAULT]", w)
    end).

Definition createUserWithEmailAndPassword (_ : option string)
    (email password : string) : World -> Settled UserCredential * World :=
  request (fun w =>
    match find_account email (accounts w) with
    | Some _ => (Rejected (firebaseError "auth/email-already-in-use"), w)
    | None =>
        if Nat.ltb (String.length password) 6
        then (Rejected (firebaseError "auth/weak-password"), w)
        else
          let x := mkAccount email password false in
          (Fulfilled (mkUserCredential (user_of x) "signIn"),
           mkWorld (x :: accounts w) (Some (user_of x)) (outbox w) (faults w))
    end).

Definition signInWithEmailAndPassword (_ : option string)
    (email password : string) : World -> Settled UserCredential * World :=
  request (fun w =>
    match find_account email (accounts w) with
    | Some x =>
        if String.eqb (secret x) password
        then (Fulfilled (mkUserCredential (user_of x) "signIn"),
              mkWorld (accounts w) (Some (user_of x)) (outbox w) (faults w))
        else (Rejected (firebaseError "auth/invalid-credential"), w)
    | None => (Rejected (firebaseError "auth/invalid-credential"), w)
    end).

Definition signOut (_ : option string) : World -> Settled unit * World :=
  request (fun w =>
    (Fulfilled tt, mkWorld (accounts w) None (outbox w) (faults w))).

Definition sendEmailVerification (u : option User)
  : World -> Settled unit * World :=
  request (fun w =>
    match u with
    | Some x =>
        (Fulfilled tt,
         mkWorld (accounts w) (session w)
                 (outbox w ++ [VerificationMail (email x)]) (faults w))
    | None => (Rejected nullUserFailure, w)
    end).

Definition sendPasswordResetEmail (_ : option string) (email : string)
  : World -> Settled unit * World :=
  request (fun w =>
    (Fulfilled tt,
     mkWorld (accounts w) (session w)
             (outbox w ++ [PasswordResetMail email]) (faults w))).

Definition currentUser (_ : string) (w : World) : option User := session w.

Definition sdk : Firebase.Sdk string string string World :=
  Firebase.mkSdk initializeApp getAuth createUserWithEmailAndPassword
    signInWithEmailAndPassword signOut sendEmailVerification
    sendPasswordResetEmail currentUser.

(** A provider with one verified and one unverified account, nobody signed
    in, and the given fault script. *)
Definition ada : Account := mkAccount "ada@example.com" "analytical" true.
Definition bob : Account := mkAccount "bob@example.com" "difference" false.

Definition world0 (script : list (option SdkError)) : World :=
  mkWorld [ada; bob] None [] script.

(** The facade object built by [new AuthService()] over this provider. *)
Definition service : Fields string string :=
  mkFields (Some "e-shop") (Some "e-shop").

Definition machine0 (script : list (option SdkError))
  : Machine string string World :=
  mkMachine service (world0 script).

(** The world [world0 script] once the account [x] has signed in. *)
Definition signedIn (x : Account) (script : list (option SdkError)) : World :=
  mkWorld [ada; bob] (Some (user_of x)) [] script.

Definition credential_of (x : Account) : UserCredential :=
  mkUserCredential (user_of x) "signIn".

(** A newcomer, and the world [world0 script] once she has an account. *)
Definition eve : Account := mkAccount "eve@example.com" "babbage1" false.

Definition joined (mail : list Mail) (script : list (option SdkError))
  : World :=
  mkWorld [eve; ada; bob] (Some (user_of eve)) mail script.

Definition storageFailure : SdkError := firebaseError "auth/internal-error".

End InMemory.

(** * Properties of the class *)

(** ** Splitting short traces *)

Lemma one_step_split (A : Type) (x y : A) (pre post : list A) :
  [x] = pre ++ y :: post -> pre = [] /\ x = y /\ post = [].
Proof.
  destruct pre as [|p pre]; simpl; intros H.
  - injection H as -> <-. auto.
  - injection H as _ H. destruct pre; discriminate.
Qed.

Lemma two_steps_split (A : Type) (x1 x2 y : A) (pre post : list A) :
  [x1; x2] = pre ++ y :: post ->
  (pre = [] /\ x1 = y /\ post = [x2]) \/ (pre = [x1] /\ x2 = y /\ post = []).
Proof.
  destruct pre as [|p pre]; simpl; intros H.
  - injection H as -> <-. auto.
  - injection H as <- H. apply one_step_split in H.
    destruct H as (-> & -> & ->). auto.
Qed.

Section Claims.

Context {FirebaseConfig FirebaseApp Auth W : Type}.

Variable firebaseConfig : FirebaseConfig.

Variable sdk : Firebase.Sdk FirebaseConfig FirebaseApp Auth W.

Ltac unfold_js :=
  unfold AuthService.exec, AuthService.new, AuthService.constructor,
    AuthService.register, AuthService.login, AuthService.logout,
    AuthService.sendEmailVerification, AuthService.forgotPassword,
    AuthService.signInWithGoogle, AuthService.signInWithFacebook,
    AuthService.UnimplementedError, AuthService.currentUser_of,
    try_catch, bind, invoke, get_auth, get_firebaseApp,
    set_auth, set_firebaseApp, ret, throw;
  simpl.

(** Case analysis on the next SDK call whose result the goal inspects. *)
Ltac settle :=
  match goal with
  | |- context [let '(_, _) := ?call in _] =>
      let w := fresh "w" in
      let a := fresh "a" in
      let e := fresh "e" in
      destruct call as [[a | e] w]; simpl
  end.

(** *** Login *)

(** C4.  When the provider accepts the credentials and the user it returns
    has a verified email, [login] resolves to that user; the sign-in is the
    only SDK call made, so no logout happens and the provider is left in the
    state the sign-in produced. *)
Theorem login_verified_returns_user :
  forall (m : Machine FirebaseApp Auth W) email password cred w1,
    Firebase.signInWithEmailAndPassword sdk (auth (this m)) email password
      (world m) = (Fulfilled cred, w1) ->
    emailVerified (user cred) = true ->
    completion (AuthService.login sdk email password m) = Return (user cred)
    /\ final (AuthService.login sdk email password m) = mkMachine (this m) w1
    /\ effects (AuthService.login sdk email password m) =
         [Called (Firebase.SignInWithEmailAndPassword (auth (this m))
                    email password) None]
    /\ signOuts (effects (AuthService.login sdk email password m)) = 0.
Proof.
  intros m email password cred w1 Hin Hverified.
  unfold_js. rewrite Hin. simpl. rewrite Hverified. simpl.
  repeat split.
Qed.

(** C1, as amended.  A rejected sign-in surfaces as it is and no logout is
    attempted: the verified flag is looked at only once the provider has
    authenticated the credentials.  When it has, the flag is false and the
    compensating logout succeeds, [login] throws the local error
    "Email not verified", having called the provider's sign-out exactly once,
    after the sign-in; the provider is left in the state sign-out produced. *)
Theorem login_unverified_logs_out_then_fails :
  forall (m : Machine FirebaseApp Auth W) email password,
    (forall e w1,
        Firebase.signInWithEmailAndPassword sdk (auth (this m)) email password
          (world m) = (Rejected e, w1) ->
        completion (AuthService.login sdk email password m) =
          Throw (ProviderError e)
        /\ signOuts (effects (AuthService.login sdk email password m)) = 0)
    /\
    (forall cred w1 w2,
        Firebase.signInWithEmailAndPassword sdk (auth (this m)) email password
          (world m) = (Fulfilled cred, w1) ->
        emailVerified (user cred) = false ->
        Firebase.signOut sdk (auth (this m)) w1 = (Fulfilled tt, w2) ->
        completion (AuthService.login sdk email password m) =
          Throw (Error "Email not verified")
        /\ final (AuthService.login sdk email password m) =
             mkMachine (this m) w2
        /\ effects (AuthService.login sdk email password m) =
             [Called (Firebase.SignInWithEmailAndPassword (auth (this m))
                        email password) None;
              Called (Firebase.SignOut (auth (this m))) None]).
Proof.
  intros m email password. split.
  - intros e w1 Hin. unfold_js. rewrite Hin. simpl. split; reflexivity.
  - intros cred w1 w2 Hin Hflag Hout.
    unfold_js. rewrite Hin. simpl. rewrite Hflag. simpl.
    rewrite Hout. simpl. repeat split.
Qed.

(** C3, as amended.  When [login] finds the email unverified and the
    compensating logout is rejected by the provider, the caller receives the
    provider's logout error, unchanged; the "Email not verified" error is
    never thrown, because the [throw] after the awaited logout is not
    reached. *)
Theorem login_unverified_logout_failure_surfaces :
  forall (m : Machine FirebaseApp Auth W) email password cred w1 e w2,
    Firebase.signInWithEmailAndPassword sdk (auth (this m)) email password
      (world m) = (Fulfilled cred, w1) ->
    emailVerified (user cred) = false ->
    Firebase.signOut sdk (auth (this m)) w1 = (Rejected e, w2) ->
    completion (AuthService.login sdk email password m) =
      Throw (ProviderError e)
    /\ completion (AuthService.login sdk email password m) <>
         Throw (Error "Email not verified")
    /\ final (AuthService.login sdk email password m) = mkMachine (this m) w2
    /\ effects (AuthService.login sdk email password m) =
         [Called (Firebase.SignInWithEmailAndPassword (auth (this m))
                    email password) None;
          Called (Firebase.SignOut (auth (this m))) (Some e)].
Proof.
  intros m email password cred w1 e w2 Hin Hflag Hout.
  unfold_js. rewrite Hin. simpl. rewrite Hflag. simpl.
  rewrite Hout. simpl. repeat split. discriminate.
Qed.

(** *** Register *)

(** C5, as amended.  When the provider accepts the account creation,
    [register] requests exactly one verification notification, for the
    created user; it resolves to the created user if the provider accepts
    that request and throws the provider's error if the provider rejects
    it. *)
Theorem register_created_requests_one_notification :
  forall (m : Machine FirebaseApp Auth W) email password cred w1,
    Firebase.createUserWithEmailAndPassword sdk (auth (this m)) email password
      (world m) = (Fulfilled cred, w1) ->
    notifications (effects (AuthService.register sdk email password m)) = 1
    /\ (exists failure,
          effects (AuthService.register sdk email password m) =
            [Called (Firebase.CreateUserWithEmailAndPassword (auth (this m))
                       email password) None;
             Called (Firebase.SendEmailVerification (Some (user cred)))
                    failure])
    /\ match Firebase.sendEmailVerification sdk (Some (user cred)) w1 with
       | (Fulfilled _, w2) =>
           completion (AuthService.register sdk email password m) =
             Return (user cred)
           /\ final (AuthService.register sdk email password m) =
                mkMachine (this m) w2
       | (Rejected e, w2) =>
           completion (AuthService.register sdk email password m) =
             Throw (ProviderError e)
           /\ final (AuthService.register sdk email password m) =
                mkMachine (this m) w2
       end.
Proof.
  intros m email password cred w1 Hnew.
  unfold_js. rewrite Hnew. simpl.
  destruct (Firebase.sendEmailVerification sdk (Some (user cred)) w1)
    as [[[] | e] w2]; simpl; repeat split; eauto.
Qed.

(** C6.  When the provider rejects the account creation, [register] throws
    the provider's error and requests no verification notification: the
    rejected creation is the only SDK call made. *)
Theorem register_rejected_sends_nothing :
  forall (m : Machine FirebaseApp Auth W) email password e w1,
    Firebase.createUserWithEmailAndPassword sdk (auth (this m)) email password
      (world m) = (Rejected e, w1) ->
    completion (AuthService.register sdk email password m) =
      Throw (ProviderError e)
    /\ notifications (effects (AuthService.register sdk email password m)) = 0
    /\ effects (AuthService.register sdk email password m) =
         [Called (Firebase.CreateUserWithEmailAndPassword (auth (this m))
                    email password) (Some e)]
    /\ final (AuthService.register sdk email password m) =
         mkMachine (this m) w1.
Proof.
  intros m email password e w1 Hnew.
  unfold_js. rewrite Hnew. simpl. repeat split.
Qed.

(** C10.  [register] never looks at the verified flag: whatever the flag of
    the created user is, [register] resolves to that user once the provider
    has accepted the creation and the notification request.  [login] is the
    method that consults it: for a user whose flag is false it never
    resolves. *)
Theorem register_ignores_verified_flag :
  forall (m : Machine FirebaseApp Auth W) email password cred w1 w2,
    Firebase.createUserWithEmailAndPassword sdk (auth (this m)) email password
      (world m) = (Fulfilled cred, w1) ->
    Firebase.sendEmailVerification sdk (Some (user cred)) w1 =
      (Fulfilled tt, w2) ->
    completion (AuthService.register sdk email password m) = Return (user cred)
    /\ (forall (m' : Machine FirebaseApp Auth W) email' password' w',
          Firebase.signInWithEmailAndPassword sdk (auth (this m')) email'
            password' (world m') = (Fulfilled cred, w') ->
          completion (AuthService.login sdk email' password' m') =
            if emailVerified (user cred)
            then Return (user cred)
            else match Firebase.signOut sdk (auth (this m')) w' with
                 | (Fulfilled _, _) => Throw (Error "Email not verified")
                 | (Rejected e, _) => Throw (ProviderError e)
                 end).
Proof.
  intros m email password cred w1 w2 Hnew Hsent. split.
  - unfold_js. rewrite Hnew. simpl. rewrite Hsent. reflexivity.
  - intros m' email' password' w' Hin.
    unfold_js. rewrite Hin. simpl.
    destruct (emailVerified (user cred)); simpl; [reflexivity|].
    destruct (Firebase.signOut sdk (auth (this m')) w') as [[[] | e] w3];
      reflexivity.
Qed.

(** *** The other methods *)

(** C8.  With no user signed in, [sendEmailVerification] hands the absent
    user to the SDK as it is; the SDK's rejection of that request reaches the
    caller unchanged, and nothing else is called. *)
Theorem sendEmailVerification_without_user :
  forall (m : Machine FirebaseApp Auth W) a e w1,
    auth (this m) = Some a ->
    Firebase.currentUser sdk a (world m) = None ->
    Firebase.sendEmailVerification sdk None (world m) = (Rejected e, w1) ->
    completion (AuthService.sendEmailVerification sdk m) =
      Throw (ProviderError e)
    /\ effects (AuthService.sendEmailVerification sdk m) =
         [Called (Firebase.SendEmailVerification None) (Some e)]
    /\ final (AuthService.sendEmailVerification sdk m) = mkMachine (this m) w1.
Proof.
  intros m a e w1 Hauth Hnobody Hsdk.
  unfold_js. rewrite Hauth. simpl. rewrite Hnobody, Hsdk. simpl.
  repeat split.
Qed.

(** C2.  [signInWithGoogle] and [signInWithFacebook] throw
    [NotImplementedError] for every argument, [null] and the empty string
    included; they never resolve, call nothing and change nothing. *)
Theorem social_sign_in_always_unimplemented :
  forall (provider : JsValue) (m : Machine FirebaseApp Auth W),
    (completion
       (AuthService.signInWithGoogle (FirebaseConfig := FirebaseConfig)
          provider m) = Throw NotImplementedError
     /\ effects
          (AuthService.signInWithGoogle (FirebaseConfig := FirebaseConfig)
             provider m) = []
     /\ final
          (AuthService.signInWithGoogle (FirebaseConfig := FirebaseConfig)
             provider m) = m)
    /\
    (completion
       (AuthService.signInWithFacebook (FirebaseConfig := FirebaseConfig)
          provider m) = Throw NotImplementedError
     /\ effects
          (AuthService.signInWithFacebook (FirebaseConfig := FirebaseConfig)
             provider m) = []
     /\ final
          (AuthService.signInWithFacebook (FirebaseConfig := FirebaseConfig)
             provider m) = m).
Proof.
  intros provider m. unfold_js. repeat split.
Qed.

(** *** All methods *)

(** C7.  In a call of any method, an SDK call that is rejected with [e] is
    the last SDK call of the method (nothing is retried or tried instead)
    and the method throws that same [e] (nothing is recovered, translated or
    wrapped). *)
Theorem provider_error_surfaces_unchanged :
  forall (op : AuthService.Operation) (m : Machine FirebaseApp Auth W)
         pre c e post,
    effects (AuthService.exec sdk op m) = pre ++ Called c (Some e) :: post ->
    post = []
    /\ completion (AuthService.exec sdk op m) = Throw (ProviderError e).
Proof.
  intros op m pre c e post.
  destruct op as [email password | | email password | | email | provider
                 | provider]; unfold_js.
  - (* register *)
    settle.
    + settle; intros H; apply two_steps_split in H;
        destruct H as [(_ & H & _) | (_ & H & Hpost)]; try discriminate.
      injection H as _ <-. auto.
    + intros H. apply one_step_split in H. destruct H as (_ & H & Hpost).
      injection H as _ <-. auto.
  - (* logout *)
    settle; intros H; apply one_step_split in H; destruct H as (_ & H & Hpost);
      try discriminate.
    injection H as _ <-. auto.
  - (* login *)
    settle.
    + destruct (emailVerified (user a)); simpl.
      * intros H. apply one_step_split in H. destruct H as (_ & H & _).
        discriminate.
      * settle; intros H; apply two_steps_split in H;
          destruct H as [(_ & H & _) | (_ & H & Hpost)]; try discriminate.
        injection H as _ <-. auto.
    + intros H. apply one_step_split in H. destruct H as (_ & H & Hpost).
      injection H as _ <-. auto.
  - (* sendEmailVerification *)
    destruct (auth (this m)) as [h|]; simpl.
    + settle; intros H; apply one_step_split in H;
        destruct H as (_ & H & Hpost); try discriminate.
      injection H as _ <-. auto.
    + intros H. destruct pre; discriminate.
  - (* forgotPassword *)
    settle; intros H; apply one_step_split in H; destruct H as (_ & H & Hpost);
      try discriminate.
    injection H as _ <-. auto.
  - intros H. destruct pre; discriminate.
  - intros H. destruct pre; discriminate.
Qed.

(** C9.  The constructor assigns each field once: when [initializeApp] and
    [getAuth] return their handles, it completes having assigned
    [this.firebaseApp] and then [this.auth], once each, to those handles;
    whatever the SDK answers, no field is assigned twice.  No method assigns
    a field: after any call of any of the seven methods the object holds the
    values it held before, so the values set at construction. *)
Theorem fields_assigned_once_then_unchanged :
  (forall (w : W) app w1 a w2,
      Firebase.initializeApp sdk firebaseConfig w = (Fulfilled app, w1) ->
      Firebase.getAuth sdk (Some app) w1 = (Fulfilled a, w2) ->
      completion (AuthService.new firebaseConfig sdk w) = Return tt
      /\ assignments (effects (AuthService.new firebaseConfig sdk w)) =
           [FFirebaseApp; FAuth]
      /\ final (AuthService.new firebaseConfig sdk w) =
           mkMachine (mkFields (Some app) (Some a)) w2
      /\ forall op : AuthService.Operation,
           this
             (final
                (AuthService.exec sdk op
                   (final (AuthService.new firebaseConfig sdk w)))) =
             mkFields (Some app) (Some a))
  /\ (forall w : W,
        exists rest,
          assignments (effects (AuthService.new firebaseConfig sdk w))
            ++ rest = [FFirebaseApp; FAuth])
  /\ (forall (op : AuthService.Operation) (m : Machine FirebaseApp Auth W),
        this (final (AuthService.exec sdk op m)) = this m
        /\ assignments (effects (AuthService.exec sdk op m)) = []).
Proof.
  assert (Hframe :
            forall (op : AuthService.Operation)
                   (m : Machine FirebaseApp Auth W),
              this (final (AuthService.exec sdk op m)) = this m
              /\ assignments (effects (AuthService.exec sdk op m)) = []).
  { intros op m.
    destruct op as [email password | | email password | | email | provider
                   | provider]; unfold_js.
    + repeat settle; auto.
    + repeat settle; auto.
    + settle; auto. destruct (emailVerified (user a)); simpl; auto.
      settle; auto.
    + destruct (auth (this m)); simpl; auto. settle; auto.
    + settle; auto.
    + auto.
    + auto. }
  split; [|split; [|exact Hframe]].
  - intros w app w1 a w2 Happ Hauth.
    assert (Hnew :
              AuthService.new firebaseConfig sdk w =
                mkRun (Return tt) (mkMachine (mkFields (Some app) (Some a)) w2)
                  [Called (Firebase.InitializeApp firebaseConfig) None;
                   Assigned FFirebaseApp;
                   Called (Firebase.GetAuth (Some app)) None;
                   Assigned FAuth]).
    { unfold AuthService.new, AuthService.constructor, bind, invoke,
        get_firebaseApp, set_auth, set_firebaseApp; simpl.
      rewrite Happ. simpl. rewrite Hauth. reflexivity. }
    rewrite Hnew. simpl. repeat split.
    intros op.
    destruct (Hframe op (mkMachine (mkFields (Some app) (Some a)) w2))
      as [Hthis _].
    exact Hthis.
  - intros w.
    unfold AuthService.new, AuthService.constructor, bind, invoke,
      get_firebaseApp, set_auth, set_firebaseApp; simpl.
    destruct (Firebase.initializeApp sdk firebaseConfig w)
      as [[app | e] w1]; simpl; [|exists [FFirebaseApp; FAuth]; reflexivity].
    destruct (Firebase.getAuth sdk (Some app) w1) as [[a | e] w2]; simpl.
    + exists []. reflexivity.
    + exists [FAuth]. reflexivity.
Qed.

End Claims.

(** ** The claims at work on the in-memory provider *)

Lemma login_verified_returns_user_witness :
  completion
    (AuthService.login InMemory.sdk "ada@example.com" "analytical"
       (InMemory.machine0 [])) =
    Return (user (InMemory.credential_of InMemory.ada))
  /\ final
       (AuthService.login InMemory.sdk "ada@example.com" "analytical"
          (InMemory.machine0 [])) =
       mkMachine (this (InMemory.machine0 []))
         (InMemory.signedIn InMemory.ada [])
  /\ effects
       (AuthService.login InMemory.sdk "ada@example.com" "analytical"
          (InMemory.machine0 [])) =
       [Called (Firebase.SignInWithEmailAndPassword
                  (auth (this (InMemory.machine0 [])))
                  "ada@example.com" "analytical") None]
  /\ signOuts
       (effects
          (AuthService.login InMemory.sdk "ada@example.com" "analytical"
             (InMemory.machine0 []))) = 0.
Proof.
  apply (@login_verified_returns_user _ _ _ _ InMemory.sdk
           (InMemory.machine0 []) "ada@example.com" "analytical"
           (InMemory.credential_of InMemory.ada)
           (InMemory.signedIn InMemory.ada []));
    reflexivity.
Defined.

(** A wrong password is turned down before any check; the right password of
    the unverified account leads to a logout and the local error. *)
Lemma login_unverified_logs_out_then_fails_witness :
  (completion
     (AuthService.login InMemory.sdk "bob@example.com" "guess"
        (InMemory.machine0 [])) =
     Throw (ProviderError (InMemory.firebaseError "auth/invalid-credential"))
   /\ signOuts
        (effects
           (AuthService.login InMemory.sdk "bob@example.com" "guess"
              (InMemory.machine0 []))) = 0)
  /\
  (completion
     (AuthService.login InMemory.sdk "bob@example.com" "difference"
        (InMemory.machine0 [])) = Throw (Error "Email not verified")
   /\ final
        (AuthService.login InMemory.sdk "bob@example.com" "difference"
           (InMemory.machine0 [])) =
        mkMachine (this (InMemory.machine0 [])) (InMemory.world0 [])
   /\ effects
        (AuthService.login InMemory.sdk "bob@example.com" "difference"
           (InMemory.machine0 [])) =
        [Called (Firebase.SignInWithEmailAndPassword
                   (auth (this (InMemory.machine0 [])))
                   "bob@example.com" "difference") None;
         Called (Firebase.SignOut (auth (this (InMemory.machine0 [])))) None]).
Proof.
  split.
  - apply (proj1 (@login_unverified_logs_out_then_fails _ _ _ _ InMemory.sdk
                    (InMemory.machine0 []) "bob@example.com" "guess")
             (InMemory.firebaseError "auth/invalid-credential")
             (InMemory.world0 [])).
    reflexivity.
  - apply (proj2 (@login_unverified_logs_out_then_fails _ _ _ _ InMemory.sdk
                    (InMemory.machine0 []) "bob@example.com" "difference")
             (InMemory.credential_of InMemory.bob)
             (InMemory.signedIn InMemory.bob [])
             (InMemory.world0 []));
      reflexivity.
Defined.

(** C1 as stated fails: the provider authenticates the unverified account,
    the logout is rejected, and [login] throws the provider's error, not
    "Email not verified"; the session is still there afterwards. *)
Lemma login_unverified_not_always_unverified_error :
  Firebase.signInWithEmailAndPassword InMemory.sdk (Some "e-shop")
    "bob@example.com" "difference"
    (InMemory.world0 [None; Some InMemory.networkFailure]) =
    (Fulfilled (InMemory.credential_of InMemory.bob),
     InMemory.signedIn InMemory.bob [Some InMemory.networkFailure])
  /\ emailVerified (user (InMemory.credential_of InMemory.bob)) = false
  /\ completion
       (AuthService.login InMemory.sdk "bob@example.com" "difference"
          (InMemory.machine0 [None; Some InMemory.networkFailure])) <>
       Throw (Error "Email not verified")
  /\ Firebase.currentUser InMemory.sdk "e-shop"
       (world
          (final
             (AuthService.login InMemory.sdk "bob@example.com" "difference"
                (InMemory.machine0 [None; Some InMemory.networkFailure])))) =
       Some (InMemory.user_of InMemory.bob).
Proof.
  repeat split. vm_compute. discriminate.
Qed.

Lemma login_unverified_logout_failure_surfaces_witness :
  completion
    (AuthService.login InMemory.sdk "bob@example.com" "difference"
       (InMemory.machine0 [None; Some InMemory.networkFailure])) =
    Throw (ProviderError InMemory.networkFailure)
  /\ completion
       (AuthService.login InMemory.sdk "bob@example.com" "difference"
          (InMemory.machine0 [None; Some InMemory.networkFailure])) <>
       Throw (Error "Email not verified")
  /\ final
       (AuthService.login InMemory.sdk "bob@example.com" "difference"
          (InMemory.machine0 [None; Some InMemory.networkFailure])) =
       mkMachine (this (InMemory.machine0 [None; Some InMemory.networkFailure]))
         (InMemory.signedIn InMemory.bob [])
  /\ effects
       (AuthService.login InMemory.sdk "bob@example.com" "difference"
          (InMemory.machine0 [None; Some InMemory.networkFailure])) =
       [Called (Firebase.SignInWithEmailAndPassword
                  (auth (this (InMemory.machine0
                                 [None; Some InMemory.networkFailure])))
                  "bob@example.com" "difference") None;
        Called (Firebase.SignOut
                  (auth (this (InMemory.machine0
                                 [None; Some InMemory.networkFailure]))))
               (Some InMemory.networkFailure)].
Proof.
  apply (@login_unverified_logout_failure_surfaces _ _ _ _ InMemory.sdk
           (InMemory.machine0 [None; Some InMemory.networkFailure])
           "bob@example.com" "difference"
           (InMemory.credential_of InMemory.bob)
           (InMemory.signedIn InMemory.bob [Some InMemory.networkFailure])
           InMemory.networkFailure
           (InMemory.signedIn InMemory.bob []));
    reflexivity.
Defined.

(** C3 as stated fails: the email is unverified, the logout that [login]
    awaits is rejected, and what the caller receives is the logout's error;
    "Email not verified" is not what [login] throws. *)
Lemma login_logout_failure_not_swallowed :
  emailVerified (user (InMemory.credential_of InMemory.bob)) = false
  /\ completion
       (AuthService.logout InMemory.sdk
          (mkMachine InMemory.service
             (InMemory.signedIn InMemory.bob
                [Some InMemory.storageFailure]))) =
       Throw (ProviderError InMemory.storageFailure)
  /\ completion
       (AuthService.login InMemory.sdk "bob@example.com" "difference"
          (InMemory.machine0 [None; Some InMemory.storageFailure])) =
       Throw (ProviderError InMemory.storageFailure)
  /\ completion
       (AuthService.login InMemory.sdk "bob@example.com" "difference"
          (InMemory.machine0 [None; Some InMemory.storageFailure])) <>
       Throw (Error "Email not verified").
Proof.
  repeat split. vm_compute. discriminate.
Qed.

Lemma register_created_requests_one_notification_witness :
  notifications
    (effects
       (AuthService.register InMemory.sdk "eve@example.com" "babbage1"
          (InMemory.machine0 []))) = 1
  /\ (exists failure,
        effects
          (AuthService.register InMemory.sdk "eve@example.com" "babbage1"
             (InMemory.machine0 [])) =
          [Called (Firebase.CreateUserWithEmailAndPassword
                     (auth (this (InMemory.machine0 [])))
                     "eve@example.com" "babbage1") None;
           Called (Firebase.SendEmailVerification
                     (Some (user (InMemory.credential_of InMemory.eve))))
                  failure])
  /\ (completion
        (AuthService.register InMemory.sdk "eve@example.com" "babbage1"
           (InMemory.machine0 [])) =
        Return (user (InMemory.credential_of InMemory.eve))
      /\ final
           (AuthService.register InMemory.sdk "eve@example.com" "babbage1"
              (InMemory.machine0 [])) =
           mkMachine (this (InMemory.machine0 []))
             (InMemory.joined
                [InMemory.VerificationMail "eve@example.com"] [])).
Proof.
  exact (@register_created_requests_one_notification _ _ _ _ InMemory.sdk
           (InMemory.machine0 []) "eve@example.com" "babbage1"
           (InMemory.credential_of InMemory.eve)
           (InMemory.joined [] [])
           eq_refl).
Defined.

(** C5 as stated fails: the provider accepts the account creation, the
    notification request is rejected, and [register] throws instead of
    returning the created user. *)
Lemma register_created_not_always_returned :
  Firebase.createUserWithEmailAndPassword InMemory.sdk (Some "e-shop")
    "eve@example.com" "babbage1"
    (InMemory.world0 [None; Some InMemory.networkFailure]) =
    (Fulfilled (InMemory.credential_of InMemory.eve),
     InMemory.joined [] [Some InMemory.networkFailure])
  /\ completion
       (AuthService.register InMemory.sdk "eve@example.com" "babbage1"
          (InMemory.machine0 [None; Some InMemory.networkFailure])) =
       Throw (ProviderError InMemory.networkFailure)
  /\ completion
       (AuthService.register InMemory.sdk "eve@example.com" "babbage1"
          (InMemory.machine0 [None; Some InMemory.networkFailure])) <>
       Return (user (InMemory.credential_of InMemory.eve)).
Proof.
  repeat split. vm_compute. discriminate.
Qed.

Lemma register_rejected_sends_nothing_witness :
  completion
    (AuthService.register InMemory.sdk "ada@example.com" "analytical"
       (InMemory.machine0 [])) =
    Throw (ProviderError (InMemory.firebaseError "auth/email-already-in-use"))
  /\ notifications
       (effects
          (AuthService.register InMemory.sdk "ada@example.com" "analytical"
             (InMemory.machine0 []))) = 0
  /\ effects
       (AuthService.register InMemory.sdk "ada@example.com" "analytical"
          (InMemory.machine0 [])) =
       [Called (Firebase.CreateUserWithEmailAndPassword
                  (auth (this (InMemory.machine0 [])))
                  "ada@example.com" "analytical")
               (Some (InMemory.firebaseError "auth/email-already-in-use"))]
  /\ final
       (AuthService.register InMemory.sdk "ada@example.com" "analytical"
          (InMemory.machine0 [])) =
       mkMachine (this (InMemory.machine0 [])) (InMemory.world0 []).
Proof.
  apply (@register_rejected_sends_nothing _ _ _ _ InMemory.sdk
           (InMemory.machine0 []) "ada@example.com" "analytical"
           (InMemory.firebaseError "auth/email-already-in-use")
           (InMemory.world0 [])).
  reflexivity.
Defined.

(** The account just created is unverified, and [register] returns it. *)
Lemma register_ignores_verified_flag_witness :
  emailVerified (user (InMemory.credential_of InMemory.eve)) = false
  /\ completion
       (AuthService.register InMemory.sdk "eve@example.com" "babbage1"
          (InMemory.machine0 [])) =
       Return (user (InMemory.credential_of InMemory.eve)).
Proof.
  split; [reflexivity|].
  apply (proj1 (@register_ignores_verified_flag _ _ _ _ InMemory.sdk
                  (InMemory.machine0 []) "eve@example.com" "babbage1"
                  (InMemory.credential_of InMemory.eve)
                  (InMemory.joined [] [])
                  (InMemory.joined
                     [InMemory.VerificationMail "eve@example.com"] [])
                  eq_refl eq_refl)).
Defined.

Lemma sendEmailVerification_without_user_witness :
  Firebase.currentUser InMemory.sdk "e-shop" (world (InMemory.machine0 [])) =
    None
  /\ completion
       (AuthService.sendEmailVerification InMemory.sdk
          (InMemory.machine0 [])) =
       Throw (ProviderError InMemory.nullUserFailure)
  /\ effects
       (AuthService.sendEmailVerification InMemory.sdk
          (InMemory.machine0 [])) =
       [Called (Firebase.SendEmailVerification None)
               (Some InMemory.nullUserFailure)]
  /\ final
       (AuthService.sendEmailVerification InMemory.sdk
          (InMemory.machine0 [])) =
       mkMachine (this (InMemory.machine0 [])) (InMemory.world0 []).
Proof.
  split; [reflexivity|].
  apply (@sendEmailVerification_without_user _ _ _ _ InMemory.sdk
           (InMemory.machine0 []) "e-shop" InMemory.nullUserFailure
           (InMemory.world0 []));
    reflexivity.
Defined.

(** The rejected logout inside [login] is the last call and its error is
    what [login] throws. *)
Lemma provider_error_surfaces_unchanged_witness :
  @nil (Effect string string string) = []
  /\ completion
       (AuthService.exec InMemory.sdk
          (AuthService.Login "bob@example.com" "difference")
          (InMemory.machine0 [None; Some InMemory.networkFailure])) =
       Throw (ProviderError InMemory.networkFailure).
Proof.
  apply (@provider_error_surfaces_unchanged _ _ _ _ InMemory.sdk
           (AuthService.Login "bob@example.com" "difference")
           (InMemory.machine0 [None; Some InMemory.networkFailure])
           [Called (Firebase.SignInWithEmailAndPassword (Some "e-shop")
                      "bob@example.com" "difference") None]
           (Firebase.SignOut (Some "e-shop"))
           InMemory.networkFailure
           []).
  reflexivity.
Defined.

(** Over the in-memory provider the constructor sets both fields to the
    handle of the configured app, and a later call leaves them there. *)
Lemma fields_assigned_once_then_unchanged_witness :
  completion (AuthService.new "e-shop" InMemory.sdk (InMemory.world0 [])) =
    Return tt
  /\ assignments
       (effects (AuthService.new "e-shop" InMemory.sdk (InMemory.world0 []))) =
       [FFirebaseApp; FAuth]
  /\ final (AuthService.new "e-shop" InMemory.sdk (InMemory.world0 [])) =
       mkMachine (mkFields (Some "e-shop") (Some "e-shop"))
         (InMemory.world0 [])
  /\ forall op : AuthService.Operation,
       this
         (final
            (AuthService.exec InMemory.sdk op
               (final
                  (AuthService.new "e-shop" InMemory.sdk
                     (InMemory.world0 []))))) =
         mkFields (Some "e-shop") (Some "e-shop").
Proof.
  apply (proj1 (@fields_assigned_once_then_unchanged _ _ _ _ "e-shop"
                  InMemory.sdk)
           (InMemory.world0 []) "e-shop" (InMemory.world0 []) "e-shop"
           (InMemory.world0 []));
    reflexivity.
Defined.

(** * Further properties of the class *)

(** ** Running a method step by step *)

Section Steps.

Context {FirebaseConfig FirebaseApp Auth W : Type}.

Abbreviation Js' := (Js FirebaseConfig FirebaseApp Auth W).

Lemma run_eta (A : Type) (r : Run FirebaseConfig FirebaseApp Auth W A) :
  mkRun (completion r) (final r) (effects r) = r.
Proof. destruct r. reflexivity. Qed.

Lemma try_rethrow (A : Type) (body : Js' A) (m : Machine FirebaseApp Auth W) :
  try_catch body (fun error => throw error) m = body m.
Proof.
  unfold try_catch, throw. destruct (body m) as [c f t]. simpl.
  destruct c as [a | e]; simpl; [reflexivity|].
  rewrite app_nil_r. reflexivity.
Qed.

Lemma bind_get_auth (B : Type) (k : option Auth -> Js' B)
    (m : Machine FirebaseApp Auth W) :
  bind get_auth k m = k (auth (this m)) m.
Proof. unfold bind, get_auth. simpl. apply run_eta. Qed.

Lemma bind_invoke (A B : Type)
    (c : Firebase.Call FirebaseConfig FirebaseApp Auth)
    (f : W -> Settled A * W) (k : A -> Js' B)
    (m : Machine FirebaseApp Auth W) :
  bind (invoke c f) k m =
    match f (world m) with
    | (Fulfilled a, w) =>
        mkRun (completion (k a (mkMachine (this m) w)))
              (final (k a (mkMachine (this m) w)))
              (Called c None :: effects (k a (mkMachine (this m) w)))
    | (Rejected e, w) =>
        mkRun (Throw (ProviderError e)) (mkMachine (this m) w)
              [Called c (Some e)]
    end.
Proof.
  unfold bind, invoke. destruct (f (world m)) as [[a | e] w]; reflexivity.
Qed.

Lemma bind_ret_map (A B : Type) (c : Js' A) (f : A -> B)
    (m : Machine FirebaseApp Auth W) :
  bind c (fun a => ret (f a)) m =
    mkRun match completion (c m) with
          | Return a => Return (f a)
          | Throw t => Throw t
          end
          (final (c m)) (effects (c m)).
Proof.
  unfold bind, ret. destruct (c m) as [[a | t] f' e]; simpl;
    [rewrite app_nil_r|]; reflexivity.
Qed.

End Steps.

Section Further.

Context {FirebaseConfig FirebaseApp Auth W : Type}.

Variable firebaseConfig : FirebaseConfig.

Variable sdk : Firebase.Sdk FirebaseConfig FirebaseApp Auth W.

(** *** The run of each method, by the answers of the SDK *)

Lemma logout_run (m : Machine FirebaseApp Auth W) :
  AuthService.logout sdk m =
    match Firebase.signOut sdk (auth (this m)) (world m) with
    | (Fulfilled u, w) =>
        mkRun (Return u) (mkMachine (this m) w)
              [Called (Firebase.SignOut (auth (this m))) None]
    | (Rejected e, w) =>
        mkRun (Throw (ProviderError e)) (mkMachine (this m) w)
              [Called (Firebase.SignOut (auth (this m))) (Some e)]
    end.
Proof.
  unfold AuthService.logout. rewrite try_rethrow, bind_get_auth.
  unfold invoke.
  destruct (Firebase.signOut sdk (auth (this m)) (world m)) as [[u | e] w];
    reflexivity.
Qed.

Lemma forgotPassword_run (email : string) (m : Machine FirebaseApp Auth W) :
  AuthService.forgotPassword sdk email m =
    match Firebase.sendPasswordResetEmail sdk (auth (this m)) email
            (world m) with
    | (Fulfilled u, w) =>
        mkRun (Return u) (mkMachine (this m) w)
              [Called (Firebase.SendPasswordResetEmail (auth (this m)) email)
                      None]
    | (Rejected e, w) =>
        mkRun (Throw (ProviderError e)) (mkMachine (this m) w)
              [Called (Firebase.SendPasswordResetEmail (auth (this m)) email)
                      (Some e)]
    end.
Proof.
  unfold AuthService.forgotPassword. rewrite try_rethrow, bind_get_auth.
  unfold invoke.
  destruct (Firebase.sendPasswordResetEmail sdk (auth (this m)) email
              (world m)) as [[u | e] w]; reflexivity.
Qed.

Lemma sendEmailVerification_run (m : Machine FirebaseApp Auth W) :
  AuthService.sendEmailVerification sdk m =
    match auth (this m) with
    | Some a =>
        match Firebase.sendEmailVerification sdk
                (Firebase.currentUser sdk a (world m)) (world m) with
        | (Fulfilled u, w) =>
            mkRun (Return u) (mkMachine (this m) w)
                  [Called (Firebase.SendEmailVerification
                             (Firebase.currentUser sdk a (world m))) None]
        | (Rejected e, w) =>
            mkRun (Throw (ProviderError e)) (mkMachine (this m) w)
                  [Called (Firebase.SendEmailVerification
                             (Firebase.currentUser sdk a (world m))) (Some e)]
        end
    | None =>
        mkRun (Throw (TypeError
                 "Cannot read properties of undefined (reading 'currentUser')"))
              m []
    end.
Proof.
  unfold AuthService.sendEmailVerification.
  rewrite try_rethrow, bind_get_auth.
  unfold bind, AuthService.currentUser_of, invoke, ret, throw.
  destruct (auth (this m)) as [a|]; simpl; [|reflexivity].
  destruct (Firebase.sendEmailVerification sdk
              (Firebase.currentUser sdk a (world m)) (world m))
    as [[u | e] w]; reflexivity.
Qed.

Lemma register_run (email password : string)
    (m : Machine FirebaseApp Auth W) :
  AuthService.register sdk email password m =
    match Firebase.createUserWithEmailAndPassword sdk (auth (this m)) email
            password (world m) with
    | (Fulfilled cred, w1) =>
        match Firebase.sendEmailVerification sdk (Some (user cred)) w1 with
        | (Fulfilled _, w2) =>
            mkRun (Return (user cred)) (mkMachine (this m) w2)
                  [Called (Firebase.CreateUserWithEmailAndPassword
                             (auth (this m)) email password) None;
                   Called (Firebase.SendEmailVerification (Some (user cred)))
                          None]
        | (Rejected e, w2) =>
            mkRun (Throw (ProviderError e)) (mkMachine (this m) w2)
                  [Called (Firebase.CreateUserWithEmailAndPassword
                             (auth (this m)) email password) None;
                   Called (Firebase.SendEmailVerification (Some (user cred)))
                          (Some e)]
        end
    | (Rejected e, w1) =>
        mkRun (Throw (ProviderError e)) (mkMachine (this m) w1)
              [Called (Firebase.CreateUserWithEmailAndPassword
                         (auth (this m)) email password) (Some e)]
    end.
Proof.
  unfold AuthService.register. rewrite try_rethrow, bind_get_auth.
  cbv beta. rewrite bind_invoke.
  destruct (Firebase.createUserWithEmailAndPassword sdk (auth (this m)) email
              password (world m)) as [[cred | e] w1]; [|reflexivity].
  rewrite bind_invoke. simpl.
  destruct (Firebase.sendEmailVerification sdk (Some (user cred)) w1)
    as [[u | e] w2]; reflexivity.
Qed.

Lemma login_run (email password : string) (m : Machine FirebaseApp Auth W) :
  AuthService.login sdk email password m =
    match Firebase.signInWithEmailAndPassword sdk (auth (this m)) email
            password (world m) with
    | (Fulfilled cred, w1) =>
        if emailVerified (user cred)
        then mkRun (Return (user cred)) (mkMachine (this m) w1)
                   [Called (Firebase.SignInWithEmailAndPassword
                              (auth (this m)) email password) None]
        else
          match Firebase.signOut sdk (auth (this m)) w1 with
          | (Fulfilled _, w2) =>
              mkRun (Throw (Error "Email not verified"))
                    (mkMachine (this m) w2)
                    [Called (Firebase.SignInWithEmailAndPassword
                               (auth (this m)) email password) None;
                     Called (Firebase.SignOut (auth (this m))) None]
          | (Rejected e, w2) =>
              mkRun (Throw (ProviderError e)) (mkMachine (this m) w2)
                    [Called (Firebase.SignInWithEmailAndPassword
                               (auth (this m)) email password) None;
                     Called (Firebase.SignOut (auth (this m))) (Some e)]
          end
    | (Rejected e, w1) =>
        mkRun (Throw (ProviderError e)) (mkMachine (this m) w1)
              [Called (Firebase.SignInWithEmailAndPassword
                         (auth (this m)) email password) (Some e)]
    end.
Proof.
  unfold AuthService.login. rewrite try_rethrow, bind_get_auth.
  cbv beta. rewrite bind_invoke.
  destruct (Firebase.signInWithEmailAndPassword sdk (auth (this m)) email
              password (world m)) as [[cred | e] w1]; [|reflexivity].
  destruct (emailVerified (user cred)); [reflexivity|].
  unfold bind. rewrite logout_run. simpl.
  destruct (Firebase.signOut sdk (auth (this m)) w1) as [[u | e] w2];
    reflexivity.
Qed.

Lemma new_run (w : W) :
  AuthService.new firebaseConfig sdk w =
    match Firebase.initializeApp sdk firebaseConfig w with
    | (Fulfilled app, w1) =>
        match Firebase.getAuth sdk (Some app) w1 with
        | (Fulfilled a, w2) =>
            mkRun (Return tt) (mkMachine (mkFields (Some app) (Some a)) w2)
                  [Called (Firebase.InitializeApp firebaseConfig) None;
                   Assigned FFirebaseApp;
                   Called (Firebase.GetAuth (Some app)) None;
                   Assigned FAuth]
        | (Rejected e, w2) =>
            mkRun (Throw (ProviderError e))
                  (mkMachine (mkFields (Some app) None) w2)
                  [Called (Firebase.InitializeApp firebaseConfig) None;
                   Assigned FFirebaseApp;
                   Called (Firebase.GetAuth (Some app)) (Some e)]
        end
    | (Rejected e, w1) =>
        mkRun (Throw (ProviderError e)) (mkMachine (mkFields None None) w1)
              [Called (Firebase.InitializeApp firebaseConfig) (Some e)]
    end.
Proof.
  unfold AuthService.new, AuthService.constructor. rewrite bind_invoke. simpl.
  destruct (Firebase.initializeApp sdk firebaseConfig w) as [[app | e] w1];
    [|reflexivity].
  rewrite bind_invoke. simpl.
  destruct (Firebase.getAuth sdk (Some app) w1) as [[a | e] w2]; reflexivity.
Qed.

(** The run of [exec], by the run of the method it calls. *)
Lemma exec_run (op : AuthService.Operation) (m : Machine FirebaseApp Auth W) :
  AuthService.exec sdk op m =
    match op with
    | AuthService.Register email password =>
        mkRun match completion (AuthService.register sdk email password m) with
              | Return u => Return (AuthService.RUser u)
              | Throw t => Throw t
              end
              (final (AuthService.register sdk email password m))
              (effects (AuthService.register sdk email password m))
    | AuthService.Logout =>
        mkRun match completion (AuthService.logout sdk m) with
              | Return _ => Return AuthService.RVoid
              | Throw t => Throw t
              end
              (final (AuthService.logout sdk m))
              (effects (AuthService.logout sdk m))
    | AuthService.Login email password =>
        mkRun match completion (AuthService.login sdk email password m) with
              | Return u => Return (AuthService.RUser u)
              | Throw t => Throw t
              end
              (final (AuthService.login sdk email password m))
              (effects (AuthService.login sdk email password m))
    | AuthService.SendEmailVerification =>
        mkRun match completion (AuthService.sendEmailVerification sdk m) with
              | Return _ => Return AuthService.RVoid
              | Throw t => Throw t
              end
              (final (AuthService.sendEmailVerification sdk m))
              (effects (AuthService.sendEmailVerification sdk m))
    | AuthService.ForgotPassword email =>
        mkRun match completion (AuthService.forgotPassword sdk email m) with
              | Return _ => Return AuthService.RVoid
              | Throw t => Throw t
              end
              (final (AuthService.forgotPassword sdk email m))
              (effects (AuthService.forgotPassword sdk email m))
    | AuthService.SignInWithGoogle _
    | AuthService.SignInWithFacebook _ =>
        mkRun (Throw NotImplementedError) m []
    end.
Proof.
  destruct op; unfold AuthService.exec;
    try (rewrite (bind_ret_map _ AuthService.RUser); reflexivity);
    try (rewrite (bind_ret_map _ (fun _ => AuthService.RVoid)); reflexivity);
    reflexivity.
Qed.

(** Rewrites a method call into its run and splits on the SDK's answers. *)
Ltac by_run :=
  rewrite ?exec_run; cbv iota;
  rewrite ?register_run, ?login_run, ?logout_run,
    ?sendEmailVerification_run, ?forgotPassword_run.

Ltac answer :=
  lazymatch goal with
  | |- context [match ?call with (_, _) => _ end] =>
      let a := fresh "a" in
      let e := fresh "e" in
      let w := fresh "w" in
      destruct call as [[a | e] w] eqn:?; cbn [completion final effects]
  end.

(** *** What a result tells the caller *)

(** X1.  [login] never resolves to an unverified user: when it returns [u],
    the provider authenticated the credentials with a credential whose user
    is [u], the flag of [u] is true, and the sign-in is the only SDK call
    that was made. *)
Theorem login_returns_only_verified_users :
  forall (m : Machine FirebaseApp Auth W) email password u,
    completion (AuthService.login sdk email password m) = Return u ->
    emailVerified u = true
    /\ exists cred w1,
         Firebase.signInWithEmailAndPassword sdk (auth (this m)) email
           password (world m) = (Fulfilled cred, w1)
         /\ u = user cred
         /\ final (AuthService.login sdk email password m) =
              mkMachine (this m) w1
         /\ effects (AuthService.login sdk email password m) =
              [Called (Firebase.SignInWithEmailAndPassword (auth (this m))
                         email password) None].
Proof.
  intros m email password u. by_run.
  answer; [|discriminate].
  destruct (emailVerified (user a)) eqn:Hflag.
  - cbn [completion final effects]. intros H. injection H as <-.
    split; [assumption|]. exists a, w. auto.
  - answer; discriminate.
Qed.

(** X2.  When [register] returns [u], the provider created the account with
    a credential whose user is [u] and accepted the one verification
    notification requested for [u]; the provider is left in the state that
    request produced. *)
Theorem register_returns_created_and_notified :
  forall (m : Machine FirebaseApp Auth W) email password u,
    completion (AuthService.register sdk email password m) = Return u ->
    exists cred w1 w2,
      Firebase.createUserWithEmailAndPassword sdk (auth (this m)) email
        password (world m) = (Fulfilled cred, w1)
      /\ Firebase.sendEmailVerification sdk (Some u) w1 = (Fulfilled tt, w2)
      /\ u = user cred
      /\ final (AuthService.register sdk email password m) =
           mkMachine (this m) w2
      /\ effects (AuthService.register sdk email password m) =
           [Called (Firebase.CreateUserWithEmailAndPassword (auth (this m))
                      email password) None;
            Called (Firebase.SendEmailVerification (Some u)) None].
Proof.
  intros m email password u. by_run.
  answer; [|discriminate].
  answer; [|discriminate].
  intros H. injection H as <-. destruct a0.
  exists a, w, w0. auto.
Qed.


(** X4.  No method makes up a provider error: when a method throws
    [ProviderError e], the last thing it did was an SDK call that the
    provider rejected with [e]. *)
Theorem provider_error_origin :
  forall (op : AuthService.Operation) (m : Machine FirebaseApp Auth W) e,
    completion (AuthService.exec sdk op m) = Throw (ProviderError e) ->
    exists pre c,
      effects (AuthService.exec sdk op m) = pre ++ [Called c (Some e)].
Proof.
  intros op m e.
  destruct op as [email password | | email password | | email | provider
                 | provider]; by_run.
  - answer.
    + answer; [discriminate|]. intros H. injection H as <-.
      eexists [_], _. reflexivity.
    + intros H. injection H as <-. eexists [], _. reflexivity.
  - answer; [discriminate|]. intros H. injection H as <-.
    eexists [], _. reflexivity.
  - answer.
    + destruct (emailVerified (user a)); [discriminate|].
      answer; [discriminate|]. intros H. injection H as <-.
      eexists [_], _. reflexivity.
    + intros H. injection H as <-. eexists [], _. reflexivity.
  - destruct (auth (this m)); [|discriminate].
    answer; [discriminate|]. intros H. injection H as <-.
    eexists [], _. reflexivity.
  - answer; [discriminate|]. intros H. injection H as <-.
    eexists [], _. reflexivity.
  - discriminate.
  - discriminate.
Qed.

(** *** The constructor *)

(** X5.  When [initializeApp] throws, the constructor throws the same error
    at once: [getAuth] is not called and no field is assigned. *)
Theorem constructor_initializeApp_failure :
  forall (w : W) e w1,
    Firebase.initializeApp sdk firebaseConfig w = (Rejected e, w1) ->
    completion (AuthService.new firebaseConfig sdk w) =
      Throw (ProviderError e)
    /\ final (AuthService.new firebaseConfig sdk w) =
         mkMachine (mkFields None None) w1
    /\ effects (AuthService.new firebaseConfig sdk w) =
         [Called (Firebase.InitializeApp firebaseConfig) (Some e)].
Proof.
  intros w e w1 Happ. rewrite new_run, Happ. repeat split.
Qed.

(** X6.  When [initializeApp] returns an app and [getAuth] throws, the
    constructor throws the error of [getAuth]; [getAuth] was asked for the
    auth handle of that app, [this.firebaseApp] holds the app and
    [this.auth] was never assigned. *)
Theorem constructor_getAuth_failure :
  forall (w : W) app w1 e w2,
    Firebase.initializeApp sdk firebaseConfig w = (Fulfilled app, w1) ->
    Firebase.getAuth sdk (Some app) w1 = (Rejected e, w2) ->
    completion (AuthService.new firebaseConfig sdk w) =
      Throw (ProviderError e)
    /\ final (AuthService.new firebaseConfig sdk w) =
         mkMachine (mkFields (Some app) None) w2
    /\ effects (AuthService.new firebaseConfig sdk w) =
         [Called (Firebase.InitializeApp firebaseConfig) None;
          Assigned FFirebaseApp;
          Called (Firebase.GetAuth (Some app)) (Some e)].
Proof.
  intros w app w1 e w2 Happ Hauth. rewrite new_run, Happ, Hauth.
  repeat split.
Qed.


(** *** How the methods compose *)

(** X8.  The compensating logout inside [login] is the [logout] method run
    on the state the sign-in left: [login] makes the sign-in call followed
    by exactly the calls of that [logout], ends in the state [logout] ends
    in, and throws what [logout] throws, or "Email not verified" when
    [logout] returns. *)
Theorem login_unverified_runs_logout :
  forall (m : Machine FirebaseApp Auth W) email password cred w1,
    Firebase.signInWithEmailAndPassword sdk (auth (this m)) email password
      (world m) = (Fulfilled cred, w1) ->
    emailVerified (user cred) = false ->
    final (AuthService.login sdk email password m) =
      final (AuthService.logout sdk (mkMachine (this m) w1))
    /\ effects (AuthService.login sdk email password m) =
         Called (Firebase.SignInWithEmailAndPassword (auth (this m))
                   email password) None
         :: effects (AuthService.logout sdk (mkMachine (this m) w1))
    /\ completion (AuthService.login sdk email password m) =
         match completion (AuthService.logout sdk (mkMachine (this m) w1)) with
         | Return _ => Throw (Error "Email not verified")
         | Throw t => Throw t
         end.
Proof.
  intros m email password cred w1 Hin Hflag.
  by_run. rewrite Hin, Hflag. cbn [this world].
  answer; repeat split.
Qed.

(** X9.  When the provider has made the created user the current user, the
    notification [register] requests is the one the [sendEmailVerification]
    method would request right after the creation: same SDK call, same
    final state, and [register] returns the created user exactly when that
    method returns. *)
Theorem register_notifies_like_sendEmailVerification :
  forall (m : Machine FirebaseApp Auth W) email password a cred w1,
    auth (this m) = Some a ->
    Firebase.createUserWithEmailAndPassword sdk (auth (this m)) email password
      (world m) = (Fulfilled cred, w1) ->
    Firebase.currentUser sdk a w1 = Some (user cred) ->
    final (AuthService.register sdk email password m) =
      final (AuthService.sendEmailVerification sdk (mkMachine (this m) w1))
    /\ effects (AuthService.register sdk email password m) =
         Called (Firebase.CreateUserWithEmailAndPassword (auth (this m))
                   email password) None
         :: effects
              (AuthService.sendEmailVerification sdk (mkMachine (this m) w1))
    /\ completion (AuthService.register sdk email password m) =
         match completion
                 (AuthService.sendEmailVerification sdk
                    (mkMachine (this m) w1)) with
         | Return _ => Return (user cred)
         | Throw t => Throw t
         end.
Proof.
  intros m email password a cred w1 Hauth Hnew Hcurrent.
  by_run. cbn [this world]. rewrite Hnew, Hauth, Hcurrent.
  answer; repeat split.
Qed.

(** X10.  The [catch] blocks of the class are invisible to a caller: each
    of the five methods completes exactly as the body of its [try] block
    does, in the same state and after the same calls. *)
Theorem catch_blocks_are_transparent :
  forall (m : Machine FirebaseApp Auth W),
    (forall email password,
        AuthService.register sdk email password m =
          (this_auth <- get_auth ;;
           userCredential <-
             invoke (Firebase.CreateUserWithEmailAndPassword this_auth email
                       password)
                    (Firebase.createUserWithEmailAndPassword sdk this_auth
                       email password) ;;
           invoke (Firebase.SendEmailVerification
                     (Some (user userCredential)))
                  (Firebase.sendEmailVerification sdk
                     (Some (user userCredential))) ;;;
           ret (user userCredential)) m)
    /\ AuthService.logout sdk m =
         (this_auth <- get_auth ;;
          invoke (Firebase.SignOut this_auth)
                 (Firebase.signOut sdk this_auth)) m
    /\ (forall email password,
          AuthService.login sdk email password m =
            (this_auth <- get_auth ;;
             userCredential <-
               invoke (Firebase.SignInWithEmailAndPassword this_auth email
                         password)
                      (Firebase.signInWithEmailAndPassword sdk this_auth
                         email password) ;;
             if emailVerified (user userCredential)
             then ret (user userCredential)
             else
               (AuthService.logout sdk ;;;
                throw (Error "Email not verified"))) m)
    /\ AuthService.sendEmailVerification sdk m =
         (this_auth <- get_auth ;;
          u <- AuthService.currentUser_of sdk this_auth ;;
          invoke (Firebase.SendEmailVerification u)
                 (Firebase.sendEmailVerification sdk u)) m
    /\ (forall email,
          AuthService.forgotPassword sdk email m =
            (this_auth <- get_auth ;;
             invoke (Firebase.SendPasswordResetEmail this_auth email)
                    (Firebase.sendPasswordResetEmail sdk this_auth email)) m).
Proof.
  intros m. repeat split; intros;
    unfold AuthService.register, AuthService.logout, AuthService.login,
      AuthService.sendEmailVerification, AuthService.forgotPassword;
    apply try_rethrow.
Qed.

(** *** What the methods call *)

(** X11.  A method calls only the SDK functions its body names, and assigns
    nothing: [register] only creates and notifies, [login] only signs in
    and out, [logout] only signs out, [sendEmailVerification] only
    notifies, [forgotPassword] only requests a reset; no method calls
    [initializeApp] or [getAuth] again. *)
Theorem methods_call_only_their_sdk_functions :
  forall (op : AuthService.Operation) (m : Machine FirebaseApp Auth W),
    forallb (is_permitted op) (effects (AuthService.exec sdk op m)) = true.
Proof.
  intros op m.
  destruct op as [email password | | email password | | email | provider
                 | provider]; by_run.
  - answer; [answer|]; reflexivity.
  - answer; reflexivity.
  - answer; [|reflexivity].
    destruct (emailVerified (user a)); [reflexivity|]. answer; reflexivity.
  - destruct (auth (this m)); [|reflexivity]. answer; reflexivity.
  - answer; reflexivity.
  - reflexivity.
  - reflexivity.
Qed.

(** X12.  Every SDK call that takes an auth handle is given [this.auth],
    the handle the object holds when the method is called. *)
Theorem methods_use_their_own_auth_handle :
  forall (op : AuthService.Operation) (m : Machine FirebaseApp Auth W),
    Forall (uses_handle (auth (this m)))
           (effects (AuthService.exec sdk op m)).
Proof.
  intros op m.
  destruct op as [email password | | email password | | email | provider
                 | provider]; by_run.
  - answer; [answer|]; repeat constructor.
  - answer; repeat constructor.
  - answer; [|repeat constructor].
    destruct (emailVerified (user a)); [repeat constructor|].
    answer; repeat constructor.
  - destruct (auth (this m)); [|constructor]. answer; repeat constructor.
  - answer; repeat constructor.
  - constructor.
  - constructor.
Qed.

(** X13.  The caller's arguments reach the provider as they are.
    [register] and [login] start with the creation, respectively the
    sign-in, for exactly the email and password they were given; [logout]
    and [forgotPassword] make exactly one call, the sign-out, respectively
    the reset request for exactly the email given, whatever its outcome. *)
Theorem methods_forward_their_arguments :
  forall (m : Machine FirebaseApp Auth W),
    (forall email password, exists failure rest,
        effects (AuthService.register sdk email password m) =
          Called (Firebase.CreateUserWithEmailAndPassword (auth (this m))
                    email password) failure :: rest)
    /\ (forall email password, exists failure rest,
          effects (AuthService.login sdk email password m) =
            Called (Firebase.SignInWithEmailAndPassword (auth (this m))
                      email password) failure :: rest)
    /\ (exists failure,
          effects (AuthService.logout sdk m) =
            [Called (Firebase.SignOut (auth (this m))) failure])
    /\ (forall email, exists failure,
          effects (AuthService.forgotPassword sdk email m) =
            [Called (Firebase.SendPasswordResetEmail (auth (this m)) email)
                    failure]).
Proof.
  intros m. repeat split.
  - intros email password. by_run. answer; [answer|]; eauto.
  - intros email password. by_run. answer; [|eauto].
    destruct (emailVerified (user a)); cbn [effects]; [eauto|].
    answer; eauto.
  - by_run. answer; eauto.
  - intros email. by_run. answer; eauto.
Qed.

(** X14.  No method reads [this.firebaseApp]: on two objects with the same
    auth handle a method completes alike, makes the same calls and leaves
    the provider in the same state, whatever their [firebaseApp] fields
    hold. *)
Theorem methods_ignore_firebaseApp :
  forall (op : AuthService.Operation) app app' (a : option Auth) (w : W),
    completion
      (AuthService.exec sdk op (mkMachine (mkFields app a) w)) =
    completion
      (AuthService.exec sdk op (mkMachine (mkFields app' a) w))
    /\ effects
         (AuthService.exec sdk op (mkMachine (mkFields app a) w)) =
       effects
         (AuthService.exec sdk op (mkMachine (mkFields app' a) w))
    /\ world
         (final (AuthService.exec sdk op (mkMachine (mkFields app a) w))) =
       world
         (final (AuthService.exec sdk op (mkMachine (mkFields app' a) w))).
Proof.
  intros op app app' a w.
  destruct op as [email password | | email password | | email | provider
                 | provider]; by_run; cbn [this auth world].
  - answer; [answer|]; auto.
  - answer; auto.
  - answer; [|auto].
    destruct (emailVerified (user a0)); [auto|]. answer; auto.
  - destruct a; [|auto]. answer; auto.
  - answer; auto.
  - auto.
  - auto.
Qed.

(** X15.  [sendEmailVerification] makes one request, for whichever user is
    current when it is called (a signed-in user or none); it returns when
    the provider accepts the request and throws the provider's error when
    the provider rejects it. *)
Theorem sendEmailVerification_targets_current_user :
  forall (m : Machine FirebaseApp Auth W) a,
    auth (this m) = Some a ->
    match Firebase.sendEmailVerification sdk
            (Firebase.currentUser sdk a (world m)) (world m) with
    | (Fulfilled _, w1) =>
        completion (AuthService.sendEmailVerification sdk m) = Return tt
        /\ final (AuthService.sendEmailVerification sdk m) =
             mkMachine (this m) w1
        /\ effects (AuthService.sendEmailVerification sdk m) =
             [Called (Firebase.SendEmailVerification
                        (Firebase.currentUser sdk a (world m))) None]
    | (Rejected e, w1) =>
        completion (AuthService.sendEmailVerification sdk m) =
          Throw (ProviderError e)
        /\ final (AuthService.sendEmailVerification sdk m) =
             mkMachine (this m) w1
        /\ effects (AuthService.sendEmailVerification sdk m) =
             [Called (Firebase.SendEmailVerification
                        (Firebase.currentUser sdk a (world m))) (Some e)]
    end.
Proof.
  intros m a Hauth. by_run. rewrite Hauth.
  destruct (Firebase.sendEmailVerification sdk
              (Firebase.currentUser sdk a (world m)) (world m))
    as [[[] | e] w1]; repeat split.
Qed.

End Further.

(** ** The further properties at work on the in-memory provider *)

Lemma login_returns_only_verified_users_witness :
  emailVerified (InMemory.user_of InMemory.ada) = true
  /\ exists cred w1,
       Firebase.signInWithEmailAndPassword InMemory.sdk
         (auth (this (InMemory.machine0 []))) "ada@example.com" "analytical"
         (world (InMemory.machine0 [])) = (Fulfilled cred, w1)
       /\ InMemory.user_of InMemory.ada = user cred
       /\ final
            (AuthService.login InMemory.sdk "ada@example.com" "analytical"
               (InMemory.machine0 [])) =
            mkMachine (this (InMemory.machine0 [])) w1
       /\ effects
            (AuthService.login InMemory.sdk "ada@example.com" "analytical"
               (InMemory.machine0 [])) =
            [Called (Firebase.SignInWithEmailAndPassword
                       (auth (this (InMemory.machine0 [])))
                       "ada@example.com" "analytical") None].
Proof.
  apply (@login_returns_only_verified_users _ _ _ _ InMemory.sdk
           (InMemory.machine0 []) "ada@example.com" "analytical"
           (InMemory.user_of InMemory.ada)).
  reflexivity.
Defined.

Lemma register_returns_created_and_notified_witness :
  exists cred w1 w2,
    Firebase.createUserWithEmailAndPassword InMemory.sdk
      (auth (this (InMemory.machine0 []))) "eve@example.com" "babbage1"
      (world (InMemory.machine0 [])) = (Fulfilled cred, w1)
    /\ Firebase.sendEmailVerification InMemory.sdk
         (Some (InMemory.user_of InMemory.eve)) w1 = (Fulfilled tt, w2)
    /\ InMemory.user_of InMemory.eve = user cred
    /\ final
         (AuthService.register InMemory.sdk "eve@example.com" "babbage1"
            (InMemory.machine0 [])) =
         mkMachine (this (InMemory.machine0 [])) w2
    /\ effects
         (AuthService.register InMemory.sdk "eve@example.com" "babbage1"
            (InMemory.machine0 [])) =
         [Called (Firebase.CreateUserWithEmailAndPassword
                    (auth (this (InMemory.machine0 [])))
                    "eve@example.com" "babbage1") None;
          Called (Firebase.SendEmailVerification
                    (Some (InMemory.user_of InMemory.eve))) None].
Proof.
  apply (@register_returns_created_and_notified _ _ _ _ InMemory.sdk
           (InMemory.machine0 []) "eve@example.com" "babbage1"
           (InMemory.user_of InMemory.eve)).
  reflexivity.
Defined.


Lemma provider_error_origin_witness :
  exists pre c,
    effects
      (AuthService.exec InMemory.sdk
         (AuthService.Login "bob@example.com" "difference")
         (InMemory.machine0 [None; Some InMemory.networkFailure])) =
    pre ++ [Called c (Some InMemory.networkFailure)].
Proof.
  apply (@provider_error_origin _ _ _ _ InMemory.sdk
           (AuthService.Login "bob@example.com" "difference")
           (InMemory.machine0 [None; Some InMemory.networkFailure])
           InMemory.networkFailure).
  reflexivity.
Defined.

Lemma constructor_initializeApp_failure_witness :
  completion
    (AuthService.new "e-shop" InMemory.sdk
       (InMemory.world0 [Some InMemory.networkFailure])) =
    Throw (ProviderError InMemory.networkFailure)
  /\ final
       (AuthService.new "e-shop" InMemory.sdk
          (InMemory.world0 [Some InMemory.networkFailure])) =
       mkMachine (mkFields None None) (InMemory.world0 [])
  /\ effects
       (AuthService.new "e-shop" InMemory.sdk
          (InMemory.world0 [Some InMemory.networkFailure])) =
       [Called (Firebase.InitializeApp "e-shop")
               (Some InMemory.networkFailure)].
Proof.
  apply (@constructor_initializeApp_failure _ _ _ _ "e-shop" InMemory.sdk
           (InMemory.world0 [Some InMemory.networkFailure])
           InMemory.networkFailure (InMemory.world0 [])).
  reflexivity.
Defined.

Lemma constructor_getAuth_failure_witness :
  completion
    (AuthService.new "e-shop" InMemory.sdk
       (InMemory.world0 [None; Some InMemory.storageFailure])) =
    Throw (ProviderError InMemory.storageFailure)
  /\ final
       (AuthService.new "e-shop" InMemory.sdk
          (InMemory.world0 [None; Some InMemory.storageFailure])) =
       mkMachine (mkFields (Some "e-shop") None) (InMemory.world0 [])
  /\ effects
       (AuthService.new "e-shop" InMemory.sdk
          (InMemory.world0 [None; Some InMemory.storageFailure])) =
       [Called (Firebase.InitializeApp "e-shop") None;
        Assigned FFirebaseApp;
        Called (Firebase.GetAuth (Some "e-shop"))
               (Some InMemory.storageFailure)].
Proof.
  apply (@constructor_getAuth_failure _ _ _ _ "e-shop" InMemory.sdk
           (InMemory.world0 [None; Some InMemory.storageFailure])
           "e-shop" (InMemory.world0 [Some InMemory.storageFailure])
           InMemory.storageFailure (InMemory.world0 []));
    reflexivity.
Defined.


Lemma login_unverified_runs_logout_witness :
  final
    (AuthService.login InMemory.sdk "bob@example.com" "difference"
       (InMemory.machine0 [])) =
    final
      (AuthService.logout InMemory.sdk
         (mkMachine (this (InMemory.machine0 []))
            (InMemory.signedIn InMemory.bob [])))
  /\ effects
       (AuthService.login InMemory.sdk "bob@example.com" "difference"
          (InMemory.machine0 [])) =
       Called (Firebase.SignInWithEmailAndPassword
                 (auth (this (InMemory.machine0 [])))
                 "bob@example.com" "difference") None
       :: effects
            (AuthService.logout InMemory.sdk
               (mkMachine (this (InMemory.machine0 []))
                  (InMemory.signedIn InMemory.bob [])))
  /\ completion
       (AuthService.login InMemory.sdk "bob@example.com" "difference"
          (InMemory.machine0 [])) =
       match completion
               (AuthService.logout InMemory.sdk
                  (mkMachine (this (InMemory.machine0 []))
                     (InMemory.signedIn InMemory.bob []))) with
       | Return _ => Throw (Error "Email not verified")
       | Throw t => Throw t
       end.
Proof.
  apply (@login_unverified_runs_logout _ _ _ _ InMemory.sdk
           (InMemory.machine0 []) "bob@example.com" "difference"
           (InMemory.credential_of InMemory.bob)
           (InMemory.signedIn InMemory.bob []));
    reflexivity.
Defined.

Lemma register_notifies_like_sendEmailVerification_witness :
  final
    (AuthService.register InMemory.sdk "eve@example.com" "babbage1"
       (InMemory.machine0 [])) =
    final
      (AuthService.sendEmailVerification InMemory.sdk
         (mkMachine (this (InMemory.machine0 [])) (InMemory.joined [] [])))
  /\ effects
       (AuthService.register InMemory.sdk "eve@example.com" "babbage1"
          (InMemory.machine0 [])) =
       Called (Firebase.CreateUserWithEmailAndPassword
                 (auth (this (InMemory.machine0 [])))
                 "eve@example.com" "babbage1") None
       :: effects
            (AuthService.sendEmailVerification InMemory.sdk
               (mkMachine (this (InMemory.machine0 []))
                  (InMemory.joined [] [])))
  /\ completion
       (AuthService.register InMemory.sdk "eve@example.com" "babbage1"
          (InMemory.machine0 [])) =
       match completion
               (AuthService.sendEmailVerification InMemory.sdk
                  (mkMachine (this (InMemory.machine0 []))
                     (InMemory.joined [] []))) with
       | Return _ => Return (user (InMemory.credential_of InMemory.eve))
       | Throw t => Throw t
       end.
Proof.
  apply (@register_notifies_like_sendEmailVerification _ _ _ _ InMemory.sdk
           (InMemory.machine0 []) "eve@example.com" "babbage1" "e-shop"
           (InMemory.credential_of InMemory.eve) (InMemory.joined [] []));
    reflexivity.
Defined.

(** With ada signed in, the notification goes to ada. *)
Lemma sendEmailVerification_targets_current_user_witness :
  completion
    (AuthService.sendEmailVerification InMemory.sdk
       (mkMachine InMemory.service (InMemory.signedIn InMemory.ada []))) =
    Return tt
  /\ final
       (AuthService.sendEmailVerification InMemory.sdk
          (mkMachine InMemory.service (InMemory.signedIn InMemory.ada []))) =
       mkMachine InMemory.service
         (InMemory.mkWorld [InMemory.ada; InMemory.bob]
            (Some (InMemory.user_of InMemory.ada))
            [InMemory.VerificationMail "ada@example.com"] [])
  /\ effects
       (AuthService.sendEmailVerification InMemory.sdk
          (mkMachine InMemory.service (InMemory.signedIn InMemory.ada []))) =
       [Called (Firebase.SendEmailVerification
                  (Some (InMemory.user_of InMemory.ada))) None].
Proof.
  exact (@sendEmailVerification_targets_current_user _ _ _ _ InMemory.sdk
           (mkMachine InMemory.service (InMemory.signedIn InMemory.ada []))
           "e-shop" eq_refl).
Defined.
